(** * Key bindings: a multimap of handlers and its dispatch step

    A shallow embedding of [src/keybindings.js]: the [Multimap] class (an
    object literal used as a map from keys to arrays) and the [KeyBindings]
    class built on it, followed by the properties of the specification
    that were checked against them. The specification calls
    [removeShortcutHandler] removeEventHandler and [shortcutHandlers]
    handlersFor.

    Conventions of the embedding.
    - A JavaScript value is a [value]; functions and plain objects are
      references, compared by identity. Numbers are integers here.
    - A key is the property name it converts to, a string.
    - [this.map = {}] is an ordinary object: reading [this.map[key]] finds
      the key's own property or, failing that, the member of
      [Object.prototype] of that name ([read]).
    - A method returns the object it ran on together with its completion:
      [Normal], or [Throw e] when an exception left the call.
    - The handlers are code of the application. What a handler does when
      it is called is a parameter, [body]: it may change the multimap (every
      field is public) and it may throw. Once created, the array of a key
      is only mutated in place, by [put] and [remove] and by the handlers,
      so that a key names its array throughout a dispatch. *)

From stdpp Require Import gmap strings list pretty.

Open Scope Z_scope.

(** ** Values *)

Inductive value :=
  | VUndefined
  | VNull
  | VBoolean (b : bool)
  | VNumber (n : Z)
  | VString (s : string)
  | VFunction (f : nat)
  | VObject (o : nat).

#[global] Instance value_eq_dec : EqDecision value.
Proof. solve_decision. Defined.

(** [typeof v]. *)
Definition typeof (v : value) : string :=
  match v with
  | VUndefined => "undefined"
  | VNull => "object"
  | VBoolean _ => "boolean"
  | VNumber _ => "number"
  | VString _ => "string"
  | VFunction _ => "function"
  | VObject _ => "object"
  end.

(** [v === w]: same type and same value; references by identity. The
    integers have no NaN, the one value that is not equal to itself. *)
Definition strict_equals (v w : value) : bool :=
  match v, w with
  | VUndefined, VUndefined => true
  | VNull, VNull => true
  | VBoolean a, VBoolean b => bool_decide (a = b)
  | VNumber a, VNumber b => bool_decide (a = b)
  | VString a, VString b => bool_decide (a = b)
  | VFunction a, VFunction b => bool_decide (a = b)
  | VObject a, VObject b => bool_decide (a = b)
  | _, _ => false
  end.

(** The string that [v + ' ...'] starts with. A function converts to its
    source text, which the embedding does not carry; [addEventHandler], the
    only user, converts values that are not functions. *)
Definition ToString (v : value) : string :=
  match v with
  | VUndefined => "undefined"
  | VNull => "null"
  | VBoolean true => "true"
  | VBoolean false => "false"
  | VNumber n => pretty n
  | VString s => s
  | VFunction _ => "function () { }"
  | VObject _ => "[object Object]"
  end.

(** What a [throw] or a failed operation raises. *)
Inductive exn :=
  | Thrown (v : value)
  | TypeError.

Inductive completion :=
  | Normal
  | Throw (e : exn).

#[global] Instance exn_eq_dec : EqDecision exn.
Proof. solve_decision. Defined.

#[global] Instance completion_eq_dec : EqDecision completion.
Proof. solve_decision. Defined.

(** ** Arrays *)

(** [a.indexOf(v)]: the first index holding a value strictly equal to [v],
    or -1. *)
Fixpoint indexOf_from (a : list value) (v : value) (k : Z) : Z :=
  match a with
  | [] => -1
  | x :: a' => if strict_equals x v then k else indexOf_from a' v (k + 1)
  end.

Definition indexOf (a : list value) (v : value) : Z := indexOf_from a v 0.

(** [a.splice(start, count)], for [start] within the array: the array that
    is left. *)
Definition splice (a : list value) (start count : nat) : list value :=
  take start a ++ drop (start + count) a.

(** ** The object behind [this.map] *)

(** The names every object inherits from [Object.prototype]. *)
Definition object_prototype : list string :=
  [ "constructor"; "hasOwnProperty"; "isPrototypeOf"; "propertyIsEnumerable";
    "toLocaleString"; "toString"; "valueOf"; "__proto__";
    "__defineGetter__"; "__defineSetter__";
    "__lookupGetter__"; "__lookupSetter__" ].

Definition inherited (key : string) : bool :=
  bool_decide (key ∈ object_prototype).

(** The result of reading [this.map[key]]. An own property is always one
    of the arrays made by [put]. *)
Inductive property :=
  | PUndefined
  | PArray (a : list value)
  | PInherited (name : string).

#[global] Instance property_eq_dec : EqDecision property.
Proof. solve_decision. Defined.

Definition read (o : gmap string (list value)) (key : string) : property :=
  match o !! key with
  | Some a => PArray a
  | None => if inherited key then PInherited key else PUndefined
  end.

(** Truthiness, as [if (x)] and [!x] use it: arrays, functions and objects
    are truthy, [undefined] is not. *)
Definition truthy (p : property) : bool :=
  match p with
  | PUndefined => false
  | PArray _ => true
  | PInherited _ => true
  end.

(** ** class Multimap *)

Module Multimap.

Record t := Build { map : gmap string (list value) }.

(** [constructor()] *)
Definition new : t := {| map := ∅ |}.

(** [put(key, value)]. A member of [Object.prototype] is truthy and has
    no [push]: the call of [undefined] is a TypeError. *)
Definition put (key : string) (v : value) (this : t) : t * completion :=
  let this1 :=
    if negb (truthy (read (map this) key))
    then {| map := <[key := []]> (map this) |}
    else this in
  match read (map this1) key with
  | PArray a => ({| map := <[key := a ++ [v]]> (map this1) |}, Normal)
  | _ => (this1, Throw TypeError)
  end.

(** [get(key)] *)
Definition get (key : string) (this : t) : property :=
  read (map this) key.

(** [remove(key, value)]. A member of [Object.prototype] is truthy and
    has no [indexOf]. *)
Definition remove (key : string) (v : value) (this : t) : t * completion :=
  let array := read (map this) key in
  if truthy array then
    match array with
    | PArray a =>
        let index := indexOf a v in
        if 0 <=? index
        then ({| map := <[key := splice a (Z.to_nat index) 1]> (map this) |},
              Normal)
        else (this, Normal)
    | _ => (this, Throw TypeError)
    end
  else (this, Normal).

End Multimap.

(** ** class KeyBindings *)

(** [keys] of a binding: one key sequence or an array of them. Their syntax
    belongs to Mousetrap. *)
Inductive keyspec :=
  | Sequence (s : string)
  | Sequences (l : list string).

Record Binding := { action : string; keys : keyspec }.

(** One call of a function: the callee and the arguments it received. *)
Definition call : Type := value * list value.

Module KeyBindings.

Record t := Build { eventHandlers : Multimap.t; bindings : list Binding }.

Section Dispatch.

(** What the function [f] does when it is called with [args] while the
    multimap is [m]: the multimap it leaves and how it completes. *)
Variable body : nat → list value → Multimap.t → Multimap.t * completion.

(** [handler(action)]: calling what is not a function is a TypeError
    and calls nothing. *)
Definition invoke (handler : value) (action : string)
    (handlers : Multimap.t) (log : list call)
    : Multimap.t * list call * completion :=
  match handler with
  | VFunction f =>
      let '(handlers', c) := body f [VString action] handlers in
      (handlers', log ++ [(handler, [VString action])], c)
  | _ => (handlers, log, Throw TypeError)
  end.

(** [array.forEach(handler => { return handler(action); })] on the
    array of [action], from index [k] with [len - k] indices to go.
    The length is read once, before the first call; each index is read
    from the array as it is by then, and an index no longer in the
    array is passed over. An exception ends the loop. *)
Fixpoint forEach (togo k : nat) (action : string)
    (handlers : Multimap.t) (log : list call)
    : Multimap.t * list call * completion :=
  match togo with
  | O => (handlers, log, Normal)
  | S togo' =>
      match Multimap.map handlers !! action ≫= (.!! k) with
      | None => forEach togo' (S k) action handlers log
      | Some handler =>
          match invoke handler action handlers log with
          | (handlers', log', Normal) =>
              forEach togo' (S k) action handlers' log'
          | stopped => stopped
          end
      end
  end.

(** The function [handle] declared in the constructor.
    [handlers.get(action)] may be [undefined], or a member of
    [Object.prototype]: neither has a [forEach] to call. *)
Definition handle (action : string) (handlers : Multimap.t)
    : Multimap.t * list call * completion :=
  match Multimap.get action handlers with
  | PArray a => forEach (length a) 0 action handlers []
  | _ => (handlers, [], Throw TypeError)
  end.

(** The arrow function given to [Mousetrap.bind] for the binding [e]:
    [() => handle(e.action, this.eventHandlers)]. *)
Definition callback (e : Binding) (this : t)
    : t * list call * completion :=
  let '(handlers', log, c) := handle (action e) (eventHandlers this) in
  ({| eventHandlers := handlers'; bindings := bindings this |}, log, c).

End Dispatch.

(** [new KeyBindings(bindings)]: the object, and the calls
    [Mousetrap.bind(e.keys, callback)] made on the way, in order, each
    recorded as the key sequences and the binding its callback is for. *)
Definition constructor (bs : list Binding) : t * list (keyspec * Binding) :=
  ({| eventHandlers := Multimap.new; bindings := bs |},
   (λ e, (keys e, e)) <$> bs).

(** [addEventHandler(action, eventHandler)] *)
Definition addEventHandler (action : string) (eventHandler : value)
    (this : t) : t * completion :=
  if negb (String.eqb (typeof eventHandler) "function")
  then (this,
        Throw (Thrown (VString (ToString eventHandler +:+ " is not a function"))))
  else
    let '(handlers', c) := Multimap.put action eventHandler (eventHandlers this) in
    ({| eventHandlers := handlers'; bindings := bindings this |}, c).

(** [removeShortcutHandler(action, eventHandler)] *)
Definition removeShortcutHandler (action : string) (eventHandler : value)
    (this : t) : t * completion :=
  let '(handlers', c) := Multimap.remove action eventHandler (eventHandlers this) in
  ({| eventHandlers := handlers'; bindings := bindings this |}, c).

(** [shortcutHandlers(action)] *)
Definition shortcutHandlers (action : string) (this : t) : property :=
  Multimap.get action (eventHandlers this).

End KeyBindings.

(** ** Vocabulary of the specification *)

(** "Removes the first occurrence of value from the collection,
    by equality", in the specification's words. *)
Fixpoint remove_first (v : value) (a : list value) : list value :=
  match a with
  | [] => []
  | x :: a' => if decide (x = v) then a' else x :: remove_first v a'
  end.

(** The values of a key, the absent result counting for none. *)
Definition values (p : property) : list value :=
  match p with
  | PArray a => a
  | _ => []
  end.

(** How many times [v] is in the collection [a]. *)
Definition occurrences (v : value) (a : list value) : nat :=
  length (filter (λ x, x = v) a).

(** How many times the handler [v] is registered for [action]. *)
Definition registrations (action : string) (v : value) (this : KeyBindings.t)
    : nat :=
  match KeyBindings.shortcutHandlers action this with
  | PArray a => occurrences v a
  | _ => 0%nat
  end.

(** How many of the calls in [log] are calls of [v]. *)
Definition invocations (v : value) (log : list call) : nat :=
  length (filter (λ c : call, c.1 = v) log).

(** The calls a dispatch of [action] makes when it calls each of [a] once
    and in order. *)
Definition calls_of (action : string) (a : list value) : list call :=
  (λ v, (v, [VString action])) <$> a.

(** A handler that behaves: a function which, called for [action], returns
    and leaves the handlers of [action] as they are. *)
Definition quiet
    (body : nat → list value → Multimap.t → Multimap.t * completion)
    (action : string) (v : value) : Prop :=
  ∃ f, v = VFunction f ∧
    ∀ m, (body f [VString action] m).2 = Normal ∧
         Multimap.get action (body f [VString action] m).1
         = Multimap.get action m.

(** [put(key, v)] for each [v] of [vs] in turn, whatever each call does. *)
Definition put_all (key : string) (vs : list value) (m : Multimap.t)
    : Multimap.t :=
  foldl (λ m v, (Multimap.put key v m).1) m vs.

(** The bindings of the specification's end-to-end example. *)
Definition zoom_in : Binding :=
  {| action := "zoom-in"; keys := Sequence "ctrl+=" |}.

Definition quit : Binding :=
  {| action := "quit"; keys := Sequences ["mod+q"; "alt+q"] |}.

(** Handlers that do nothing and return. *)
Definition idle : nat → list value → Multimap.t → Multimap.t * completion :=
  λ _ _ m, (m, Normal).

(** The operations an application has on a [KeyBindings] object. *)
Inductive request :=
  | AddEventHandler (action : string) (eventHandler : value)
  | RemoveShortcutHandler (action : string) (eventHandler : value)
  | ShortcutHandlers (action : string).

(** The object after one request, whether or not the request threw. *)
Definition perform (this : KeyBindings.t) (r : request) : KeyBindings.t :=
  match r with
  | AddEventHandler action eventHandler =>
      (KeyBindings.addEventHandler action eventHandler this).1
  | RemoveShortcutHandler action eventHandler =>
      (KeyBindings.removeShortcutHandler action eventHandler this).1
  | ShortcutHandlers _ => this
  end.

Definition perform_all (this : KeyBindings.t) (rs : list request)
    : KeyBindings.t :=
  foldl perform this rs.

(** Handlers that throw. *)
Definition failing : nat → list value → Multimap.t → Multimap.t * completion :=
  λ _ _ m, (m, Throw (Thrown (VString "failed"))).

(** Handlers that unregister themselves from "quit" when they are called,
    as [this.eventHandlers.remove('quit', f)] does. *)
Definition one_shot : nat → list value → Multimap.t → Multimap.t * completion :=
  λ f _ m, ((Multimap.remove "quit" (VFunction f) m).1, Normal).

(** A request that is not an [addEventHandler] for [action]. *)
Definition adds_nothing_to (action : string) (r : request) : Prop :=
  match r with
  | AddEventHandler action' _ => action' ≠ action
  | _ => True
  end.

(** Every value held by the multimap is a function. *)
Definition all_invocable (this : KeyBindings.t) : Prop :=
  ∀ key a, Multimap.map (KeyBindings.eventHandlers this) !! key = Some a →
    Forall (λ v, typeof v = "function"%string) a.

(** ** Arrays: [indexOf] and [splice] *)

Lemma strict_equals_eq v w : strict_equals v w = true ↔ v = w.
Proof.
  destruct v, w; simpl; rewrite ?bool_decide_eq_true;
    split; intros; simplify_eq; done.
Qed.

Lemma strict_equals_refl v : strict_equals v v = true.
Proof. by apply strict_equals_eq. Qed.

Lemma remove_first_absent v a : v ∉ a → remove_first v a = a.
Proof.
  induction a as [|x a IH]; simpl; [done|].
  intros Hn. apply not_elem_of_cons in Hn as [Hx Ha].
  rewrite decide_False; [|done]. by rewrite IH.
Qed.

Lemma indexOf_from_absent a v k : 0 ≤ k → v ∉ a → indexOf_from a v k = -1.
Proof.
  revert k. induction a as [|x a IH]; simpl; intros k Hk Hn; [done|].
  apply not_elem_of_cons in Hn as [Hx Ha].
  destruct (strict_equals x v) eqn:E.
  - apply strict_equals_eq in E. congruence.
  - apply IH; [lia|done].
Qed.

(** Where [indexOf] finds [v]: at its first occurrence, and [splice] there
    is the specification's removal. *)
Lemma indexOf_from_present a v k :
  v ∈ a →
  ∃ i : nat, indexOf_from a v k = k + Z.of_nat i ∧
    a !! i = Some v ∧
    (∀ j x, (j < i)%nat → a !! j = Some x → x ≠ v) ∧
    splice a i 1 = remove_first v a.
Proof.
  revert k. induction a as [|x a IH]; simpl; intros k Hin.
  { by apply elem_of_nil in Hin. }
  destruct (strict_equals x v) eqn:E.
  - apply strict_equals_eq in E. subst x. exists 0%nat.
    rewrite decide_True; [|done]. unfold splice. simpl.
    rewrite drop_0. repeat split; [lia | intros; lia].
  - assert (x ≠ v) as Hx.
    { intros ->. by rewrite strict_equals_refl in E. }
    apply elem_of_cons in Hin as [Hin|Hin]; [congruence|].
    destruct (IH (k + 1) Hin) as (i & Hi & Hl & Hfirst & Hs).
    exists (S i). rewrite decide_False; [|done].
    repeat split.
    + lia.
    + done.
    + intros [|j] y Hj Hy; simpl in Hy; [congruence|].
      eapply Hfirst; [|done]. lia.
    + unfold splice in *. simpl. by rewrite Hs.
Qed.

Lemma occurrences_app v a b :
  occurrences v (a ++ b) = (occurrences v a + occurrences v b)%nat.
Proof. unfold occurrences. by rewrite filter_app, length_app. Qed.

Lemma occurrences_absent v a : v ∉ a → occurrences v a = 0%nat.
Proof.
  unfold occurrences. induction a as [|x a IH]; [done|].
  intros Hn. apply not_elem_of_cons in Hn as [Hx Ha].
  rewrite filter_cons_False; [by apply IH | congruence].
Qed.

Lemma occurrences_remove_first v a :
  v ∈ a → S (occurrences v (remove_first v a)) = occurrences v a.
Proof.
  unfold occurrences. induction a as [|x a IH]; simpl; intros Hin.
  { by apply elem_of_nil in Hin. }
  destruct (decide (x = v)) as [->|Hx].
  - by rewrite filter_cons_True.
  - apply elem_of_cons in Hin as [Hin|Hin]; [congruence|].
    rewrite !filter_cons_False by done. by apply IH.
Qed.

Lemma occurrences_remove_first_other v w a :
  w ≠ v → occurrences w (remove_first v a) = occurrences w a.
Proof.
  unfold occurrences. intros Hw. induction a as [|x a IH]; simpl; [done|].
  destruct (decide (x = v)) as [->|Hx].
  - by rewrite filter_cons_False.
  - destruct (decide (x = w)) as [->|Hxw].
    + rewrite !filter_cons_True by done. simpl. by rewrite IH.
    + by rewrite !filter_cons_False.
Qed.

(** Removal keeps the order of what stays. *)
Lemma remove_first_sublist v a : remove_first v a `sublist_of` a.
Proof.
  induction a as [|x a IH]; simpl; [done|].
  destruct (decide (x = v)).
  - by apply sublist_cons.
  - by apply sublist_skip.
Qed.

(** ** Reading [this.map] *)

Lemma read_own o key a : o !! key = Some a → read o key = PArray a.
Proof. unfold read. by intros ->. Qed.

Lemma read_array o key a : read o key = PArray a → o !! key = Some a.
Proof. unfold read. destruct (o !! key); [|case_match]; naive_solver. Qed.

Lemma read_undefined o key :
  read o key = PUndefined ↔ o !! key = None ∧ inherited key = false.
Proof.
  unfold read. destruct (o !! key); [split; [done | by intros [? _]]|].
  destruct (inherited key); split; try done; by intros [_ ?].
Qed.

Lemma read_inherited o key name :
  read o key = PInherited name →
  o !! key = None ∧ inherited key = true ∧ name = key.
Proof.
  unfold read. destruct (o !! key); [done|].
  destruct (inherited key); [|done]. by intros [= ->].
Qed.

Lemma read_insert_eq o key a : read (<[key := a]> o) key = PArray a.
Proof. apply read_own, lookup_insert_eq. Qed.

Lemma read_insert_ne o key key' a :
  key ≠ key' → read (<[key := a]> o) key' = read o key'.
Proof. intros Hne. unfold read. by rewrite lookup_insert_ne. Qed.

(** ** Multimap: what [put] and [remove] do, case by case *)

Lemma put_array key v m a :
  Multimap.get key m = PArray a →
  Multimap.put key v m
  = ({| Multimap.map := <[key := a ++ [v]]> (Multimap.map m) |}, Normal).
Proof.
  unfold Multimap.get, Multimap.put. intros H. rewrite H. simpl.
  by rewrite H.
Qed.

Lemma put_undefined key v m :
  Multimap.get key m = PUndefined →
  Multimap.put key v m
  = ({| Multimap.map := <[key := [v]]> (Multimap.map m) |}, Normal).
Proof.
  unfold Multimap.get, Multimap.put. intros H. rewrite H. simpl.
  rewrite read_insert_eq. simpl. by rewrite insert_insert_eq.
Qed.

Lemma put_inherited key v m name :
  Multimap.get key m = PInherited name →
  Multimap.put key v m = (m, Throw TypeError).
Proof.
  unfold Multimap.get, Multimap.put. intros H. rewrite H. simpl.
  by rewrite H.
Qed.

(** [put] returns exactly when the key is not a name that the object
    inherits without owning. *)
Lemma put_returns key v m :
  (Multimap.put key v m).2 = Normal ↔
  ∀ name, Multimap.get key m ≠ PInherited name.
Proof.
  destruct (Multimap.get key m) as [|a|name] eqn:E.
  - rewrite (put_undefined _ _ _ E). naive_solver.
  - rewrite (put_array _ _ _ _ E). naive_solver.
  - rewrite (put_inherited _ _ _ _ E). naive_solver.
Qed.

(** After a [put] that returned, the key has its former values followed
    by the new one. *)
Lemma get_put key v m :
  (Multimap.put key v m).2 = Normal →
  Multimap.get key (Multimap.put key v m).1
  = PArray (values (Multimap.get key m) ++ [v]).
Proof.
  destruct (Multimap.get key m) as [|a|name] eqn:E.
  - rewrite (put_undefined _ _ _ E). intros _.
    unfold Multimap.get. simpl. apply read_insert_eq.
  - rewrite (put_array _ _ _ _ E). intros _.
    unfold Multimap.get. simpl. apply read_insert_eq.
  - by rewrite (put_inherited _ _ _ _ E).
Qed.

Lemma get_put_ne key key' v m :
  key ≠ key' →
  Multimap.get key' (Multimap.put key v m).1 = Multimap.get key' m.
Proof.
  intros Hne. destruct (Multimap.get key m) as [|a|name] eqn:E.
  - rewrite (put_undefined _ _ _ E). unfold Multimap.get. simpl.
    by apply read_insert_ne.
  - rewrite (put_array _ _ _ _ E). unfold Multimap.get. simpl.
    by apply read_insert_ne.
  - by rewrite (put_inherited _ _ _ _ E).
Qed.

Lemma remove_undefined key v m :
  Multimap.get key m = PUndefined → Multimap.remove key v m = (m, Normal).
Proof.
  unfold Multimap.get, Multimap.remove. intros H. by rewrite H.
Qed.

Lemma remove_inherited key v m name :
  Multimap.get key m = PInherited name →
  Multimap.remove key v m = (m, Throw TypeError).
Proof.
  unfold Multimap.get, Multimap.remove. intros H. by rewrite H.
Qed.

Lemma remove_absent key v m a :
  Multimap.get key m = PArray a → v ∉ a →
  Multimap.remove key v m = (m, Normal).
Proof.
  unfold Multimap.get, Multimap.remove. intros H Hn. rewrite H. simpl.
  unfold indexOf. by rewrite indexOf_from_absent.
Qed.

Lemma remove_present key v m a :
  Multimap.get key m = PArray a → v ∈ a →
  Multimap.remove key v m
  = ({| Multimap.map := <[key := remove_first v a]> (Multimap.map m) |},
     Normal).
Proof.
  unfold Multimap.get, Multimap.remove. intros H Hin. rewrite H. simpl.
  destruct (indexOf_from_present a v 0 Hin) as (i & Hi & _ & _ & Hs).
  unfold indexOf. rewrite Hi.
  replace (0 <=? 0 + Z.of_nat i) with true by (symmetry; apply Z.leb_le; lia).
  replace (Z.to_nat (0 + Z.of_nat i)) with i by lia.
  by rewrite Hs.
Qed.

(** [remove] on a key that has an array: the array loses the first
    occurrence of the value, which leaves it as it is when there is none. *)
Lemma get_remove key v m a :
  Multimap.get key m = PArray a →
  (Multimap.remove key v m).2 = Normal ∧
  Multimap.get key (Multimap.remove key v m).1 = PArray (remove_first v a).
Proof.
  intros H. destruct (decide (v ∈ a)) as [Hin|Hn].
  - rewrite (remove_present _ _ _ _ H Hin). split; [done|].
    unfold Multimap.get. simpl. apply read_insert_eq.
  - rewrite (remove_absent _ _ _ _ H Hn). split; [done|].
    by rewrite remove_first_absent.
Qed.

Lemma get_remove_ne key key' v m :
  key ≠ key' →
  Multimap.get key' (Multimap.remove key v m).1 = Multimap.get key' m.
Proof.
  intros Hne. destruct (Multimap.get key m) as [|a|name] eqn:E.
  - by rewrite (remove_undefined _ _ _ E).
  - destruct (decide (v ∈ a)) as [Hin|Hn].
    + rewrite (remove_present _ _ _ _ E Hin). unfold Multimap.get. simpl.
      by apply read_insert_ne.
    + by rewrite (remove_absent _ _ _ _ E Hn).
  - by rewrite (remove_inherited _ _ _ _ E).
Qed.

(** ** KeyBindings: the methods in terms of the multimap *)

Lemma addEventHandler_function action h this :
  typeof h = "function"%string →
  KeyBindings.addEventHandler action h this
  = ({| KeyBindings.eventHandlers :=
          (Multimap.put action h (KeyBindings.eventHandlers this)).1;
        KeyBindings.bindings := KeyBindings.bindings this |},
     (Multimap.put action h (KeyBindings.eventHandlers this)).2).
Proof.
  intros Hf. unfold KeyBindings.addEventHandler. rewrite Hf. simpl.
  by destruct (Multimap.put action h (KeyBindings.eventHandlers this)).
Qed.

Lemma addEventHandler_not_function action v this :
  typeof v ≠ "function"%string →
  KeyBindings.addEventHandler action v this
  = (this,
     Throw (Thrown (VString (ToString v +:+ " is not a function")))).
Proof.
  intros Hf. unfold KeyBindings.addEventHandler.
  destruct (String.eqb_spec (typeof v) "function"); [done|].
  reflexivity.
Qed.

(** A call that returned was given a function. *)
Lemma addEventHandler_Normal action h this :
  (KeyBindings.addEventHandler action h this).2 = Normal →
  typeof h = "function"%string ∧
  (Multimap.put action h (KeyBindings.eventHandlers this)).2 = Normal.
Proof.
  destruct (decide (typeof h = "function"%string)) as [Hf|Hf].
  - by rewrite (addEventHandler_function _ _ _ Hf).
  - by rewrite (addEventHandler_not_function _ _ _ Hf).
Qed.

Lemma shortcutHandlers_addEventHandler action h this :
  (KeyBindings.addEventHandler action h this).2 = Normal →
  KeyBindings.shortcutHandlers action
    (KeyBindings.addEventHandler action h this).1
  = PArray (values (KeyBindings.shortcutHandlers action this) ++ [h]).
Proof.
  intros HN. destruct (addEventHandler_Normal _ _ _ HN) as [Hf Hput].
  rewrite (addEventHandler_function _ _ _ Hf).
  unfold KeyBindings.shortcutHandlers. simpl. by apply get_put.
Qed.

(** Once the action has an array, adding a function returns. *)
Lemma addEventHandler_array_Normal action h this a :
  typeof h = "function"%string →
  KeyBindings.shortcutHandlers action this = PArray a →
  (KeyBindings.addEventHandler action h this).2 = Normal.
Proof.
  intros Hf Ha. rewrite (addEventHandler_function _ _ _ Hf). simpl.
  apply put_returns. unfold KeyBindings.shortcutHandlers in Ha.
  intros name. by rewrite Ha.
Qed.

Lemma shortcutHandlers_addEventHandler_ne action action' v this :
  action ≠ action' →
  KeyBindings.shortcutHandlers action'
    (KeyBindings.addEventHandler action v this).1
  = KeyBindings.shortcutHandlers action' this.
Proof.
  intros Hne. destruct (decide (typeof v = "function"%string)) as [Hf|Hf].
  - rewrite (addEventHandler_function _ _ _ Hf).
    unfold KeyBindings.shortcutHandlers. simpl. by apply get_put_ne.
  - by rewrite (addEventHandler_not_function _ _ _ Hf).
Qed.

Lemma removeShortcutHandler_unfold action v this :
  KeyBindings.removeShortcutHandler action v this
  = ({| KeyBindings.eventHandlers :=
          (Multimap.remove action v (KeyBindings.eventHandlers this)).1;
        KeyBindings.bindings := KeyBindings.bindings this |},
     (Multimap.remove action v (KeyBindings.eventHandlers this)).2).
Proof.
  unfold KeyBindings.removeShortcutHandler.
  by destruct (Multimap.remove action v (KeyBindings.eventHandlers this)).
Qed.

Lemma shortcutHandlers_removeShortcutHandler action v this a :
  KeyBindings.shortcutHandlers action this = PArray a →
  (KeyBindings.removeShortcutHandler action v this).2 = Normal ∧
  KeyBindings.shortcutHandlers action
    (KeyBindings.removeShortcutHandler action v this).1
  = PArray (remove_first v a).
Proof.
  intros Ha. rewrite removeShortcutHandler_unfold.
  unfold KeyBindings.shortcutHandlers in *. simpl. by apply get_remove.
Qed.

Lemma shortcutHandlers_removeShortcutHandler_ne action action' v this :
  action ≠ action' →
  KeyBindings.shortcutHandlers action'
    (KeyBindings.removeShortcutHandler action v this).1
  = KeyBindings.shortcutHandlers action' this.
Proof.
  intros Hne. rewrite removeShortcutHandler_unfold.
  unfold KeyBindings.shortcutHandlers. simpl. by apply get_remove_ne.
Qed.

(** ** The dispatch step *)

Lemma invocations_calls_of v action a :
  invocations v (calls_of action a) = occurrences v a.
Proof.
  unfold invocations, calls_of, occurrences.
  induction a as [|x a IH]; [done|]. rewrite fmap_cons.
  destruct (decide (x = v)) as [->|Hx].
  - rewrite !filter_cons_True by done. simpl. by rewrite IH.
  - by rewrite !filter_cons_False.
Qed.

Lemma calls_of_arguments action a c :
  c ∈ calls_of action a → c.2 = [VString action].
Proof.
  unfold calls_of. intros Hc. apply list_elem_of_fmap in Hc as (v & -> & _).
  done.
Qed.

Section DispatchFacts.

Variable body : nat → list value → Multimap.t → Multimap.t * completion.

(** Without an array under the action there is no [forEach] to call. *)
Lemma handle_no_array action m :
  (∀ a, Multimap.get action m ≠ PArray a) →
  KeyBindings.handle body action m = (m, [], Throw TypeError).
Proof.
  intros Hno. unfold KeyBindings.handle.
  destruct (Multimap.get action m) as [|a|name]; [done| |done].
  by destruct (Hno a).
Qed.

Lemma handle_empty action m :
  Multimap.get action m = PArray [] →
  KeyBindings.handle body action m = (m, [], Normal).
Proof. unfold KeyBindings.handle. by intros ->. Qed.

(** With handlers that behave, the loop calls the handlers from index [k]
    on, in order, and leaves the array as it found it. *)
Lemma forEach_quiet action a :
  Forall (quiet body action) a →
  ∀ togo k m log,
    Multimap.get action m = PArray a →
    ∃ m', KeyBindings.forEach body togo k action m log
          = (m', log ++ calls_of action (take togo (drop k a)), Normal) ∧
          Multimap.get action m' = PArray a.
Proof.
  intros Hq. induction togo as [|togo IH]; intros k m log Hm; simpl.
  { exists m. by rewrite app_nil_r. }
  rewrite (read_array _ _ _ Hm). simpl.
  destruct (a !! k) as [v|] eqn:Hk.
  - rewrite (drop_S _ _ _ Hk). simpl.
    assert (quiet body action v) as (f & -> & Hf).
    { eapply Forall_forall; [exact Hq|]. by eapply list_elem_of_lookup_2. }
    destruct (Hf m) as [Hc Hget]. unfold KeyBindings.invoke.
    destruct (body f [VString action] m) as [m1 c] eqn:Hb.
    simpl in Hc, Hget. subst c.
    destruct (IH (S k) m1 (log ++ [(VFunction f, [VString action])]))
      as (m' & Hrun & Hm'); [by rewrite Hget|].
    exists m'. split; [|done]. rewrite Hrun.
    by rewrite <- app_assoc.
  - destruct (IH (S k) m log Hm) as (m' & Hrun & Hm').
    exists m'. split; [|done]. rewrite Hrun.
    apply lookup_ge_None in Hk.
    rewrite !drop_ge by lia. by rewrite !take_nil.
Qed.

(** A dispatch to handlers that behave calls each of them once, in the
    order of the array, and returns. *)
Lemma handle_quiet action m a :
  Multimap.get action m = PArray a →
  Forall (quiet body action) a →
  ∃ m', KeyBindings.handle body action m = (m', calls_of action a, Normal) ∧
        Multimap.get action m' = PArray a.
Proof.
  intros Hm Hq. unfold KeyBindings.handle. rewrite Hm.
  destruct (forEach_quiet action a Hq (length a) 0%nat m [] Hm)
    as (m' & Hrun & Hm').
  exists m'. split; [|done]. rewrite Hrun. simpl.
  by rewrite drop_0, firstn_all.
Qed.

(** The dispatch step writes nothing of its own to the multimap: with
    handlers that leave the multimap alone, so does a dispatch. *)
Lemma forEach_writes_nothing action :
  (∀ f args m, (body f args m).1 = m) →
  ∀ togo k m log, (KeyBindings.forEach body togo k action m log).1.1 = m.
Proof.
  intros Hb. induction togo as [|togo IH]; intros k m log; simpl; [done|].
  destruct (Multimap.map m !! action ≫= (.!! k)) as [handler|]; [|apply IH].
  destruct handler; simpl; try done.
  pose proof (Hb f [VString action] m) as Hm.
  destruct (body f [VString action] m) as [m1 c]. simpl in Hm. subst m1.
  destruct c; [apply IH | done].
Qed.

Lemma handle_writes_nothing action m :
  (∀ f args m, (body f args m).1 = m) →
  (KeyBindings.handle body action m).1.1 = m.
Proof.
  intros Hb. unfold KeyBindings.handle.
  destruct (Multimap.get action m); try done.
  by apply forEach_writes_nothing.
Qed.

End DispatchFacts.

(** ** The claims of the specification *)

Lemma registrations_values action v this :
  registrations action v this
  = occurrences v (values (KeyBindings.shortcutHandlers action this)).
Proof.
  unfold registrations.
  by destruct (KeyBindings.shortcutHandlers action this).
Qed.

Lemma idle_quiet action a :
  Forall (λ v, typeof v = "function"%string) a →
  Forall (quiet idle action) a.
Proof.
  intros H. eapply Forall_impl; [exact H|].
  intros [] Hf; try done. by eexists.
Qed.

(** What the hypothesis on the handlers is for: the loop does not shield
    one handler from another. A handler that throws ends the dispatch
    before its successors are called, and a handler that unregisters
    itself makes the loop pass over its successor. *)
Example failing_handler_stops_the_dispatch :
  (KeyBindings.handle failing "quit"
     {| Multimap.map := {[ "quit"%string := [VFunction 1; VFunction 2] ]} |}).1.2
  = [(VFunction 1, [VString "quit"])] ∧
  (KeyBindings.handle failing "quit"
     {| Multimap.map := {[ "quit"%string := [VFunction 1; VFunction 2] ]} |}).2
  = Throw (Thrown (VString "failed")).
Proof. vm_compute. done. Qed.

Example one_shot_handler_hides_its_successor :
  KeyBindings.handle one_shot "quit"
    {| Multimap.map :=
         {[ "quit"%string := [VFunction 1; VFunction 2; VFunction 3] ]} |}
  = ({| Multimap.map := {[ "quit"%string := [VFunction 2] ]} |},
     [(VFunction 1, [VString "quit"]); (VFunction 3, [VString "quit"])],
     Normal).
Proof. vm_compute. done. Qed.

(** Requests that add nothing for an action leave it without an array. *)
Lemma perform_keeps_no_array action this r :
  adds_nothing_to action r →
  (∀ a, KeyBindings.shortcutHandlers action this ≠ PArray a) →
  ∀ a, KeyBindings.shortcutHandlers action (perform this r) ≠ PArray a.
Proof.
  intros Hr Hno. destruct r as [action' v|action' v|action']; simpl in *.
  - by rewrite shortcutHandlers_addEventHandler_ne.
  - destruct (decide (action' = action)) as [->|Hne].
    + rewrite removeShortcutHandler_unfold.
      unfold KeyBindings.shortcutHandlers in *. simpl.
      destruct (Multimap.get action (KeyBindings.eventHandlers this))
        as [|a0|name] eqn:E.
      * rewrite (remove_undefined _ _ _ E). simpl. by rewrite E.
      * by destruct (Hno a0).
      * rewrite (remove_inherited _ _ _ _ E). simpl. by rewrite E.
    + by rewrite shortcutHandlers_removeShortcutHandler_ne.
  - done.
Qed.

(** Every dispatch of an action for which nothing was ever added throws. *)
Lemma callback_never_registered_throws
    (body : nat → list value → Multimap.t → Multimap.t * completion)
    (bs : list Binding) (e : Binding) (rs : list request) :
  Forall (adds_nothing_to (action e)) rs →
  (KeyBindings.callback body e
     (perform_all (KeyBindings.constructor bs).1 rs)).2
  = Throw TypeError.
Proof.
  intros Hrs. unfold KeyBindings.callback. rewrite handle_no_array; [done|].
  assert (∀ a, KeyBindings.shortcutHandlers (action e)
                 (KeyBindings.constructor bs).1 ≠ PArray a) as H0.
  { intros a. unfold KeyBindings.shortcutHandlers, Multimap.get, read.
    simpl. rewrite lookup_empty. by destruct (inherited (action e)). }
  revert H0. generalize (KeyBindings.constructor bs).1.
  induction Hrs as [|r rs Hr Hrs IH]; intros this Hno; simpl; [done|].
  apply IH. by apply perform_keeps_no_array.
Qed.

(** C1, which the code breaks. The claim: for every action name for which
    no handler has ever been registered, the callback that the constructor
    gives to the detection engine invokes no handler and raises no error.
    The code: on a freshly constructed object the callback of any binding
    invokes no handler and throws a TypeError, because [handle] calls
    [forEach] on the [undefined] that [get] returned. *)
Theorem callback_without_handlers_throws
    (body : nat → list value → Multimap.t → Multimap.t * completion)
    (bs : list Binding) (e : Binding) :
  KeyBindings.callback body e (KeyBindings.constructor bs).1
  = ((KeyBindings.constructor bs).1, [], Throw TypeError).
Proof.
  unfold KeyBindings.callback. rewrite handle_no_array; [done|].
  intros a. unfold Multimap.get, read. simpl. rewrite lookup_empty.
  by destruct (inherited (action e)).
Qed.

(** C2, which the code breaks. The claim: [addEventHandler(A, v)] throws
    for every value [v] that is not invocable, leaving the multimap as it
    was, and does not throw for an invocable [v]. The code: for the action
    name "constructor", which every object inherits, adding a function
    throws a TypeError. *)
Theorem addEventHandler_constructor_throws (bs : list Binding) (f : nat) :
  KeyBindings.addEventHandler "constructor" (VFunction f)
    (KeyBindings.constructor bs).1
  = ((KeyBindings.constructor bs).1, Throw TypeError).
Proof. reflexivity. Qed.

(** What does hold of [addEventHandler]: a value that is not a function is
    refused with the thrown message, and the object is the one before the
    call. *)
Lemma addEventHandler_refuses action v this :
  typeof v ≠ "function"%string →
  ∃ message,
    KeyBindings.addEventHandler action v this
    = (this, Throw (Thrown (VString message))).
Proof.
  intros Hf. eexists. by apply addEventHandler_not_function.
Qed.

(** And a function is accepted under every name that is not inherited. *)
Lemma addEventHandler_accepts action h this :
  typeof h = "function"%string →
  inherited action = false →
  (KeyBindings.addEventHandler action h this).2 = Normal.
Proof.
  intros Hf Hi. rewrite (addEventHandler_function _ _ _ Hf). simpl.
  apply put_returns. intros name Hn.
  apply read_inherited in Hn as (_ & Hn & _). congruence.
Qed.

(** C3 as written fails, in two ways. A handler that is already registered
    for the action is registered twice after the call, and a dispatch
    invokes it twice, not once. And a handler added after one that throws
    is not invoked at all. *)
Lemma added_handler_is_not_always_invoked_once :
  let h := VFunction 1 in
  let before := (KeyBindings.addEventHandler "quit" h
                   (KeyBindings.constructor [quit]).1).1 in
  let after := (KeyBindings.addEventHandler "quit" h before).1 in
  let after' := (KeyBindings.addEventHandler "quit" (VFunction 2) before).1 in
  (typeof h = "function"%string ∧
   (KeyBindings.addEventHandler "quit" h before).2 = Normal ∧
   KeyBindings.callback idle quit after
   = (after, [(h, [VString "quit"]); (h, [VString "quit"])], Normal) ∧
   invocations h (KeyBindings.callback idle quit after).1.2 ≠ 1%nat) ∧
  (typeof (VFunction 2) = "function"%string ∧
   (KeyBindings.addEventHandler "quit" (VFunction 2) before).2 = Normal ∧
   KeyBindings.callback failing quit after'
   = (after', [(h, [VString "quit"])], Throw (Thrown (VString "failed"))) ∧
   invocations (VFunction 2)
     (KeyBindings.callback failing quit after').1.2 ≠ 1%nat).
Proof. vm_compute. repeat split; congruence. Qed.

(** C3, amended. For every action name A and handler h, after a call
    [addEventHandler(A, h)] that returned, h is among the handlers of A
    once more than before, as the last of them; and if the handlers of A
    return when they are called and leave the handlers of A as they are, a
    dispatch of A returns after calling each handler of A once, in order,
    with A as the only argument, which invokes h once for each of its
    registrations: once more than before the call, and exactly once if h
    was not registered for A before. *)
Theorem addEventHandler_registers_once_more
    (body : nat → list value → Multimap.t → Multimap.t * completion)
    (action : string) (h : value) (this : KeyBindings.t) :
  (KeyBindings.addEventHandler action h this).2 = Normal →
  KeyBindings.shortcutHandlers action
    (KeyBindings.addEventHandler action h this).1
  = PArray (values (KeyBindings.shortcutHandlers action this) ++ [h]) ∧
  registrations action h (KeyBindings.addEventHandler action h this).1
  = S (registrations action h this) ∧
  (Forall (quiet body action)
     (values (KeyBindings.shortcutHandlers action this) ++ [h]) →
   ∃ handlers' log,
     KeyBindings.handle body action
       (KeyBindings.eventHandlers
          (KeyBindings.addEventHandler action h this).1)
     = (handlers', log, Normal) ∧
     log = calls_of action
             (values (KeyBindings.shortcutHandlers action this) ++ [h]) ∧
     invocations h log = S (registrations action h this) ∧
     (registrations action h this = 0%nat → invocations h log = 1%nat) ∧
     (∀ c, c ∈ log → c.2 = [VString action])).
Proof.
  intros HN.
  pose proof (shortcutHandlers_addEventHandler _ _ _ HN) as Ha.
  assert (registrations action h
            (KeyBindings.addEventHandler action h this).1
          = S (registrations action h this)) as Hr.
  { rewrite !registrations_values, Ha. simpl.
    rewrite occurrences_app. unfold occurrences at 2.
    rewrite filter_cons_True by done. simpl. lia. }
  split; [done|]. split; [done|]. intros Hq.
  destruct (handle_quiet body action _ _ Ha Hq) as (m' & Hrun & _).
  exists m', (calls_of action
                (values (KeyBindings.shortcutHandlers action this) ++ [h])).
  split; [done|]. split; [done|].
  assert (invocations h
            (calls_of action
               (values (KeyBindings.shortcutHandlers action this) ++ [h]))
          = S (registrations action h this)) as Hi.
  { rewrite invocations_calls_of, <- Hr, registrations_values, Ha. done. }
  split; [done|]. split; [intros H0; by rewrite Hi, H0|].
  intros c. apply calls_of_arguments.
Qed.

Lemma addEventHandler_registers_once_more_witness :
  (KeyBindings.addEventHandler "zoom-in" (VFunction 1)
     (KeyBindings.constructor [zoom_in; quit]).1).2 = Normal ∧
  ∃ handlers' log,
    KeyBindings.handle idle "zoom-in"
      (KeyBindings.eventHandlers
         (KeyBindings.addEventHandler "zoom-in" (VFunction 1)
            (KeyBindings.constructor [zoom_in; quit]).1).1)
    = (handlers', log, Normal) ∧
    log = [(VFunction 1, [VString "zoom-in"])] ∧
    invocations (VFunction 1) log = 1%nat.
Proof.
  split; [reflexivity|].
  destruct (addEventHandler_registers_once_more idle "zoom-in" (VFunction 1)
              (KeyBindings.constructor [zoom_in; quit]).1)
    as (_ & _ & Hdispatch).
  - reflexivity.
  - destruct Hdispatch as (handlers' & log & Hrun & Hlog & _ & Hone & _).
    + apply idle_quiet. repeat constructor.
    + exists handlers', log.
      split; [exact Hrun|]. split; [exact Hlog|]. apply Hone. reflexivity.
Defined.

(** C4 as written fails: the loop does not shield one handler from
    another. With h1, h2, h3 added in that order, if they throw the
    dispatch invokes h1 alone and throws; if they unregister themselves
    when called, it invokes h1 and h3 and passes over h2. *)
Lemma handlers_that_misbehave_are_not_all_invoked :
  let this :=
    (KeyBindings.addEventHandler "quit" (VFunction 3)
       (KeyBindings.addEventHandler "quit" (VFunction 2)
          (KeyBindings.addEventHandler "quit" (VFunction 1)
             (KeyBindings.constructor [quit]).1).1).1).1 in
  KeyBindings.shortcutHandlers "quit" this
  = PArray [VFunction 1; VFunction 2; VFunction 3] ∧
  KeyBindings.callback failing quit this
  = (this, [(VFunction 1, [VString "quit"])],
     Throw (Thrown (VString "failed"))) ∧
  (KeyBindings.callback one_shot quit this).1.2
  = [(VFunction 1, [VString "quit"]); (VFunction 3, [VString "quit"])].
Proof. vm_compute. done. Qed.

(** C4, amended. For every action name A and handlers h1, h2, h3 added to
    A in that order, if the handlers of A return when they are called and
    leave the handlers of A as they are, a dispatch of A invokes them in
    exactly that order: after the handlers that A had before, it calls h1,
    then h2, then h3, each once and with A as the only argument, and
    returns. *)
Theorem dispatch_in_order_of_insertion
    (body : nat → list value → Multimap.t → Multimap.t * completion)
    (action : string) (h1 h2 h3 : value) (this : KeyBindings.t) :
  (KeyBindings.addEventHandler action h1 this).2 = Normal →
  (KeyBindings.addEventHandler action h2
     (KeyBindings.addEventHandler action h1 this).1).2 = Normal →
  (KeyBindings.addEventHandler action h3
     (KeyBindings.addEventHandler action h2
        (KeyBindings.addEventHandler action h1 this).1).1).2 = Normal →
  Forall (quiet body action)
    (values (KeyBindings.shortcutHandlers action this) ++ [h1; h2; h3]) →
  ∃ handlers',
    KeyBindings.handle body action
      (KeyBindings.eventHandlers
         (KeyBindings.addEventHandler action h3
            (KeyBindings.addEventHandler action h2
               (KeyBindings.addEventHandler action h1 this).1).1).1)
    = (handlers',
       calls_of action (values (KeyBindings.shortcutHandlers action this))
       ++ [(h1, [VString action]); (h2, [VString action]);
           (h3, [VString action])],
       Normal).
Proof.
  intros H1 H2 H3 Hq.
  pose proof (shortcutHandlers_addEventHandler _ _ _ H3) as Ha.
  rewrite (shortcutHandlers_addEventHandler _ _ _ H2) in Ha.
  rewrite (shortcutHandlers_addEventHandler _ _ _ H1) in Ha.
  simpl in Ha. rewrite <- !app_assoc in Ha. simpl in Ha.
  destruct (handle_quiet body action _ _ Ha Hq) as (m' & Hrun & _).
  exists m'. rewrite Hrun. unfold calls_of. by rewrite fmap_app.
Qed.

Lemma dispatch_in_order_of_insertion_witness :
  ∃ handlers',
    KeyBindings.handle idle "quit"
      (KeyBindings.eventHandlers
         (KeyBindings.addEventHandler "quit" (VFunction 3)
            (KeyBindings.addEventHandler "quit" (VFunction 2)
               (KeyBindings.addEventHandler "quit" (VFunction 1)
                  (KeyBindings.constructor [quit]).1).1).1).1)
    = (handlers',
       calls_of "quit"
         (values (KeyBindings.shortcutHandlers "quit"
                    (KeyBindings.constructor [quit]).1))
       ++ [(VFunction 1, [VString "quit"]); (VFunction 2, [VString "quit"]);
           (VFunction 3, [VString "quit"])],
       Normal).
Proof.
  apply (dispatch_in_order_of_insertion idle "quit"
           (VFunction 1) (VFunction 2) (VFunction 3)
           (KeyBindings.constructor [quit]).1).
  - reflexivity.
  - reflexivity.
  - reflexivity.
  - apply idle_quiet. repeat constructor.
Defined.

Lemma occurrences_zero v a : occurrences v a = 0%nat → v ∉ a.
Proof.
  unfold occurrences. induction a as [|x a IH]; intros H0.
  { apply not_elem_of_nil. }
  destruct (decide (x = v)) as [->|Hx].
  - by rewrite filter_cons_True in H0.
  - rewrite filter_cons_False in H0 by done.
    apply not_elem_of_cons. split; [congruence | by apply IH].
Qed.

Lemma remove_first_app v a b :
  v ∉ a → remove_first v (a ++ v :: b) = a ++ b.
Proof.
  induction a as [|x a IH]; simpl; intros Hn.
  { by rewrite decide_True. }
  apply not_elem_of_cons in Hn as [Hx Ha].
  rewrite decide_False by congruence. by rewrite IH.
Qed.

(** C5 as written fails. A handler registered twice that unregisters
    itself when called, or that throws, is invoked once in a dispatch, not
    twice. And when the handler had a registration before the two, a
    dispatch invokes it three times and one removal leaves two
    registrations. *)
Lemma handler_registered_twice_is_not_always_invoked_twice :
  let h := VFunction 1 in
  let twice :=
    (KeyBindings.addEventHandler "quit" h
       (KeyBindings.addEventHandler "quit" h
          (KeyBindings.constructor [quit]).1).1).1 in
  let thrice := (KeyBindings.addEventHandler "quit" h twice).1 in
  KeyBindings.shortcutHandlers "quit" twice = PArray [h; h] ∧
  (KeyBindings.callback one_shot quit twice).2 = Normal ∧
  invocations h (KeyBindings.callback one_shot quit twice).1.2 = 1%nat ∧
  invocations h (KeyBindings.callback failing quit twice).1.2 = 1%nat ∧
  invocations h (KeyBindings.callback idle quit thrice).1.2 = 3%nat ∧
  registrations "quit" h
    (KeyBindings.removeShortcutHandler "quit" h thrice).1 = 2%nat.
Proof. vm_compute. done. Qed.

(** C5, amended. For every action name A and handler h not yet registered
    for A, registering h twice for A makes a dispatch of A invoke h
    exactly twice if the handlers of A return when they are called and
    leave the handlers of A as they are; and one
    [removeShortcutHandler(A, h)] after the two registrations returns and
    leaves exactly one registration of h, the handlers that remain being
    in the order they had. *)
Theorem register_twice_remove_once
    (body : nat → list value → Multimap.t → Multimap.t * completion)
    (action : string) (h : value) (this : KeyBindings.t) :
  registrations action h this = 0%nat →
  (KeyBindings.addEventHandler action h this).2 = Normal →
  (KeyBindings.addEventHandler action h
     (KeyBindings.addEventHandler action h this).1).2 = Normal ∧
  registrations action h
    (KeyBindings.addEventHandler action h
       (KeyBindings.addEventHandler action h this).1).1 = 2%nat ∧
  (Forall (quiet body action)
     (values (KeyBindings.shortcutHandlers action this) ++ [h; h]) →
   ∃ handlers' log,
     KeyBindings.handle body action
       (KeyBindings.eventHandlers
          (KeyBindings.addEventHandler action h
             (KeyBindings.addEventHandler action h this).1).1)
     = (handlers', log, Normal) ∧
     log = calls_of action
             (values (KeyBindings.shortcutHandlers action this) ++ [h; h]) ∧
     invocations h log = 2%nat) ∧
  (KeyBindings.removeShortcutHandler action h
     (KeyBindings.addEventHandler action h
        (KeyBindings.addEventHandler action h this).1).1).2 = Normal ∧
  registrations action h
    (KeyBindings.removeShortcutHandler action h
       (KeyBindings.addEventHandler action h
          (KeyBindings.addEventHandler action h this).1).1).1 = 1%nat ∧
  KeyBindings.shortcutHandlers action
    (KeyBindings.removeShortcutHandler action h
       (KeyBindings.addEventHandler action h
          (KeyBindings.addEventHandler action h this).1).1).1
  = PArray (values (KeyBindings.shortcutHandlers action this) ++ [h]).
Proof.
  intros H0 H1.
  rewrite registrations_values in H0.
  destruct (addEventHandler_Normal _ _ _ H1) as [Hf _].
  pose proof (shortcutHandlers_addEventHandler _ _ _ H1) as Ha1.
  pose proof (addEventHandler_array_Normal _ _ _ _ Hf Ha1) as H2.
  pose proof (shortcutHandlers_addEventHandler _ _ _ H2) as Ha2.
  rewrite Ha1 in Ha2. simpl in Ha2. rewrite <- app_assoc in Ha2.
  simpl in Ha2.
  assert (occurrences h
            (values (KeyBindings.shortcutHandlers action this) ++ [h; h])
          = 2%nat) as Hocc.
  { rewrite occurrences_app, H0. unfold occurrences.
    by rewrite !filter_cons_True. }
  destruct (shortcutHandlers_removeShortcutHandler _ h _ _ Ha2)
    as [H3 Ha3].
  rewrite remove_first_app in Ha3 by by apply occurrences_zero.
  split; [done|]. split.
  { by rewrite registrations_values, Ha2. }
  split.
  { intros Hq.
    destruct (handle_quiet body action _ _ Ha2 Hq) as (m' & Hrun & _).
    eexists _, _. split; [exact Hrun|]. split; [done|].
    by rewrite invocations_calls_of. }
  split; [done|]. split; [|done].
  rewrite registrations_values, Ha3. simpl.
  rewrite occurrences_app, H0. unfold occurrences.
  by rewrite filter_cons_True.
Qed.

Lemma register_twice_remove_once_witness :
  (∃ handlers' log,
     KeyBindings.handle idle "quit"
       (KeyBindings.eventHandlers
          (KeyBindings.addEventHandler "quit" (VFunction 2)
             (KeyBindings.addEventHandler "quit" (VFunction 2)
                (KeyBindings.addEventHandler "quit" (VFunction 1)
                   (KeyBindings.constructor [quit]).1).1).1).1)
     = (handlers', log, Normal) ∧
     invocations (VFunction 2) log = 2%nat) ∧
  KeyBindings.shortcutHandlers "quit"
    (KeyBindings.removeShortcutHandler "quit" (VFunction 2)
       (KeyBindings.addEventHandler "quit" (VFunction 2)
          (KeyBindings.addEventHandler "quit" (VFunction 2)
             (KeyBindings.addEventHandler "quit" (VFunction 1)
                (KeyBindings.constructor [quit]).1).1).1).1).1
  = PArray [VFunction 1; VFunction 2].
Proof.
  destruct (register_twice_remove_once idle "quit" (VFunction 2)
              (KeyBindings.addEventHandler "quit" (VFunction 1)
                 (KeyBindings.constructor [quit]).1).1)
    as (_ & _ & Hdispatch & _ & _ & Hleft).
  - reflexivity.
  - reflexivity.
  - split; [|exact Hleft].
    destruct Hdispatch as (handlers' & log & Hrun & _ & Htwice).
    + apply idle_quiet. repeat constructor.
    + exists handlers', log. split; [exact Hrun | exact Htwice].
Defined.

(** C6, which the code breaks. The claim: removal takes out the first
    occurrence of the value, does nothing when the key is unknown or the
    value is not there, and never throws. The code: for a key that is the
    name of a member of [Object.prototype], such as "constructor",
    [remove] throws a TypeError, and so does [removeShortcutHandler]. *)
Theorem remove_constructor_throws (v : value) (bs : list Binding) :
  Multimap.remove "constructor" v Multimap.new
  = (Multimap.new, Throw TypeError) ∧
  KeyBindings.removeShortcutHandler "constructor" v
    (KeyBindings.constructor bs).1
  = ((KeyBindings.constructor bs).1, Throw TypeError).
Proof. split; reflexivity. Qed.

(** What does hold of [remove], for a key that is not inherited: it
    returns, and the key's collection, when there is one, has lost the
    first occurrence of the value and nothing else. *)
Lemma remove_is_remove_first key v m :
  inherited key = false →
  (Multimap.remove key v m).2 = Normal ∧
  Multimap.get key (Multimap.remove key v m).1
  = match Multimap.get key m with
    | PArray a => PArray (remove_first v a)
    | absent => absent
    end.
Proof.
  intros Hi. destruct (Multimap.get key m) as [|a|name] eqn:E.
  - by rewrite (remove_undefined _ _ _ E).
  - by apply get_remove.
  - apply read_inherited in E as (_ & E & _). congruence.
Qed.

(** C7, which the code breaks. The claim: [get] of a key never used with
    [put] is the absent result. The code: on a new multimap, [get] of
    "toString" is the function every object inherits under that name. *)
Theorem get_toString_is_not_absent :
  Multimap.get "toString" Multimap.new = PInherited "toString" ∧
  Multimap.get "toString" Multimap.new ≠ PUndefined.
Proof. split; [reflexivity | discriminate]. Qed.

(** What does hold of [get]: a key that is not inherited reads as
    [undefined] on a new multimap, and a key reads as its collection after
    a [put] that returned ([get_put]). *)
Lemma get_new key :
  inherited key = false → Multimap.get key Multimap.new = PUndefined.
Proof.
  intros Hi. apply read_undefined. split; [apply lookup_empty | done].
Qed.

(** A request leaves an array where there was one. *)
Lemma perform_keeps_array action this r a :
  KeyBindings.shortcutHandlers action this = PArray a →
  ∃ a', KeyBindings.shortcutHandlers action (perform this r) = PArray a'.
Proof.
  intros Ha. destruct r as [action' v|action' v|action']; simpl.
  - destruct (decide (action' = action)) as [->|Hne].
    + destruct (decide (typeof v = "function"%string)) as [Hf|Hf].
      * pose proof (addEventHandler_array_Normal _ _ _ _ Hf Ha) as HN.
        rewrite (shortcutHandlers_addEventHandler _ _ _ HN). by eexists.
      * rewrite (addEventHandler_not_function _ _ _ Hf). by eexists.
    + rewrite shortcutHandlers_addEventHandler_ne by done. by eexists.
  - destruct (decide (action' = action)) as [->|Hne].
    + destruct (shortcutHandlers_removeShortcutHandler _ v _ _ Ha)
        as [_ Hr].
      rewrite Hr. by eexists.
    + rewrite shortcutHandlers_removeShortcutHandler_ne by done.
      by eexists.
  - by eexists.
Qed.

Lemma perform_all_keeps_array action rs :
  ∀ this a,
    KeyBindings.shortcutHandlers action this = PArray a →
    ∃ a', KeyBindings.shortcutHandlers action (perform_all this rs)
          = PArray a'.
Proof.
  induction rs as [|r rs IH]; intros this a Ha; simpl.
  { by eexists. }
  destruct (perform_keeps_array action this r a Ha) as [a' Ha'].
  by eapply IH.
Qed.

(** C8. Once a handler has been added for an action name A, whatever is
    added and removed afterwards, [shortcutHandlers(A)] is a collection,
    possibly empty, and never the absent result; and when the collection
    is empty, a dispatch of A invokes nothing and returns. *)
Theorem added_action_keeps_its_collection
    (body : nat → list value → Multimap.t → Multimap.t * completion)
    (action : string) (h : value) (this : KeyBindings.t)
    (rs : list request) :
  (KeyBindings.addEventHandler action h this).2 = Normal →
  (∃ a, KeyBindings.shortcutHandlers action
          (perform_all (KeyBindings.addEventHandler action h this).1 rs)
        = PArray a) ∧
  (KeyBindings.shortcutHandlers action
     (perform_all (KeyBindings.addEventHandler action h this).1 rs)
   = PArray [] →
   KeyBindings.handle body action
     (KeyBindings.eventHandlers
        (perform_all (KeyBindings.addEventHandler action h this).1 rs))
   = (KeyBindings.eventHandlers
        (perform_all (KeyBindings.addEventHandler action h this).1 rs),
      [], Normal)).
Proof.
  intros HN. split.
  - eapply perform_all_keeps_array.
    by apply shortcutHandlers_addEventHandler.
  - apply handle_empty.
Qed.

Lemma added_action_keeps_its_collection_witness :
  KeyBindings.shortcutHandlers "quit"
    (perform_all
       (KeyBindings.addEventHandler "quit" (VFunction 1)
          (KeyBindings.constructor [quit]).1).1
       [RemoveShortcutHandler "quit" (VFunction 1)])
  = PArray [] ∧
  KeyBindings.handle idle "quit"
    (KeyBindings.eventHandlers
       (perform_all
          (KeyBindings.addEventHandler "quit" (VFunction 1)
             (KeyBindings.constructor [quit]).1).1
          [RemoveShortcutHandler "quit" (VFunction 1)]))
  = (KeyBindings.eventHandlers
       (perform_all
          (KeyBindings.addEventHandler "quit" (VFunction 1)
             (KeyBindings.constructor [quit]).1).1
          [RemoveShortcutHandler "quit" (VFunction 1)]),
     [], Normal).
Proof.
  split; [reflexivity|].
  apply (added_action_keeps_its_collection idle "quit" (VFunction 1)
           (KeyBindings.constructor [quit]).1
           [RemoveShortcutHandler "quit" (VFunction 1)]).
  - reflexivity.
  - reflexivity.
Defined.

Lemma Forall_remove_first (P : value → Prop) v a :
  Forall P a → Forall P (remove_first v a).
Proof.
  induction 1 as [|x a Hx Ha IH]; simpl; [done|].
  destruct (decide (x = v)); [done | by constructor].
Qed.

(** The map after [put]: the one before, or the one before with the key's
    collection extended by the value. *)
Lemma put_map key v m :
  Multimap.map (Multimap.put key v m).1 = Multimap.map m ∨
  Multimap.map (Multimap.put key v m).1
  = <[key := values (Multimap.get key m) ++ [v]]> (Multimap.map m).
Proof.
  destruct (Multimap.get key m) as [|a|name] eqn:E.
  - rewrite (put_undefined _ _ _ E). by right.
  - rewrite (put_array _ _ _ _ E). by right.
  - rewrite (put_inherited _ _ _ _ E). by left.
Qed.

Lemma remove_map key v m :
  Multimap.map (Multimap.remove key v m).1 = Multimap.map m ∨
  ∃ a, Multimap.map m !! key = Some a ∧
       Multimap.map (Multimap.remove key v m).1
       = <[key := remove_first v a]> (Multimap.map m).
Proof.
  destruct (Multimap.get key m) as [|a|name] eqn:E.
  - rewrite (remove_undefined _ _ _ E). by left.
  - destruct (decide (v ∈ a)) as [Hin|Hn].
    + rewrite (remove_present _ _ _ _ E Hin). right. exists a.
      split; [by apply read_array | done].
    + rewrite (remove_absent _ _ _ _ E Hn). by left.
  - rewrite (remove_inherited _ _ _ _ E). by left.
Qed.

Lemma perform_invocable this r :
  all_invocable this → all_invocable (perform this r).
Proof.
  intros Hinv. destruct r as [action v|action v|action]; simpl; [| |done].
  - destruct (decide (typeof v = "function"%string)) as [Hf|Hf].
    2:{ by rewrite (addEventHandler_not_function _ _ _ Hf). }
    rewrite (addEventHandler_function _ _ _ Hf). simpl.
    intros key a. simpl.
    destruct (put_map action v (KeyBindings.eventHandlers this))
      as [-> | ->]; [apply Hinv|].
    destruct (decide (action = key)) as [->|Hne].
    + rewrite lookup_insert_eq. intros [= <-]. apply Forall_app. split.
      * destruct (Multimap.get key (KeyBindings.eventHandlers this))
          as [|a0|name] eqn:E; simpl; [done| |done].
        eapply Hinv. by apply read_array.
      * by constructor.
    + rewrite lookup_insert_ne by done. apply Hinv.
  - rewrite removeShortcutHandler_unfold. intros key a. simpl.
    destruct (remove_map action v (KeyBindings.eventHandlers this))
      as [-> | (a0 & Ha0 & ->)]; [apply Hinv|].
    destruct (decide (action = key)) as [->|Hne].
    + rewrite lookup_insert_eq. intros [= <-].
      apply Forall_remove_first. by eapply Hinv.
    + rewrite lookup_insert_ne by done. apply Hinv.
Qed.

(** C9. Every value held by the handler multimap of a [KeyBindings]
    object is a function: it is so when the object is constructed, and
    every operation on the object keeps it so, [addEventHandler] because
    it checks the value before it inserts it, the others because they
    insert nothing ([removeShortcutHandler] only takes out,
    [shortcutHandlers] only reads, and a dispatch writes nothing beyond
    what the handlers it calls write). *)
Theorem handlers_are_functions
    (body : nat → list value → Multimap.t → Multimap.t * completion)
    (bs : list Binding) (rs : list request) :
  all_invocable (KeyBindings.constructor bs).1 ∧
  (∀ this r, all_invocable this → all_invocable (perform this r)) ∧
  all_invocable (perform_all (KeyBindings.constructor bs).1 rs) ∧
  ((∀ f args m, (body f args m).1 = m) →
   ∀ e this, (KeyBindings.callback body e this).1.1 = this).
Proof.
  assert (all_invocable (KeyBindings.constructor bs).1) as H0.
  { intros key a. simpl. by rewrite lookup_empty. }
  split; [done|]. split; [apply perform_invocable|]. split.
  - revert H0. generalize (KeyBindings.constructor bs).1.
    induction rs as [|r rs IH]; intros this Hinv; simpl; [done|].
    apply IH. by apply perform_invocable.
  - intros Hb e [handlers bs']. unfold KeyBindings.callback. simpl.
    pose proof (handle_writes_nothing body (action e) handlers Hb) as Hw.
    destruct (KeyBindings.handle body (action e) handlers) as [[m log] c].
    simpl in *. by subst m.
Qed.

(** C10. For every pair of distinct action names A and B, neither
    [addEventHandler(A, h)] nor [removeShortcutHandler(A, h)] changes the
    collection of handlers registered for B. *)
Theorem other_actions_untouched
    (A B : string) (h : value) (this : KeyBindings.t) :
  A ≠ B →
  KeyBindings.shortcutHandlers B (KeyBindings.addEventHandler A h this).1
  = KeyBindings.shortcutHandlers B this ∧
  KeyBindings.shortcutHandlers B
    (KeyBindings.removeShortcutHandler A h this).1
  = KeyBindings.shortcutHandlers B this.
Proof.
  intros Hne. split.
  - by apply shortcutHandlers_addEventHandler_ne.
  - by apply shortcutHandlers_removeShortcutHandler_ne.
Qed.

Lemma other_actions_untouched_witness :
  KeyBindings.shortcutHandlers "quit"
    (KeyBindings.addEventHandler "zoom-in" (VFunction 2)
       (KeyBindings.addEventHandler "quit" (VFunction 1)
          (KeyBindings.constructor [zoom_in; quit]).1).1).1
  = PArray [VFunction 1] ∧
  KeyBindings.shortcutHandlers "quit"
    (KeyBindings.removeShortcutHandler "zoom-in" (VFunction 2)
       (KeyBindings.addEventHandler "quit" (VFunction 1)
          (KeyBindings.constructor [zoom_in; quit]).1).1).1
  = PArray [VFunction 1].
Proof.
  apply (other_actions_untouched "zoom-in" "quit").
  discriminate.
Defined.

Example put_twice :
  Multimap.get "a"
    (Multimap.put "a" (VNumber 2) (Multimap.put "a" (VNumber 1) Multimap.new).1).1
  = PArray [VNumber 1; VNumber 2].
Proof. vm_compute. reflexivity. Qed.

Example addEventHandler_42 :
  KeyBindings.addEventHandler "zoom-in" (VNumber 42)
    (KeyBindings.constructor [zoom_in; quit]).1
  = ((KeyBindings.constructor [zoom_in; quit]).1,
     Throw (Thrown (VString "42 is not a function"))).
Proof. vm_compute. reflexivity. Qed.

(** ** Further properties of the multimap *)


(** X1. [put] has two outcomes. Either it returns, and the key then holds
    its former values followed by the new one; or the key is a name
    inherited from [Object.prototype] that the map does not own, and then
    it throws a TypeError and leaves the multimap as it was. *)
Theorem put_appends_or_throws (key : string) (v : value) (m : Multimap.t) :
  ((inherited key = false ∨ is_Some (Multimap.map m !! key)) ∧
   (Multimap.put key v m).2 = Normal ∧
   Multimap.get key (Multimap.put key v m).1
   = PArray (values (Multimap.get key m) ++ [v]))
  ∨
  (inherited key = true ∧ Multimap.map m !! key = None ∧
   Multimap.put key v m = (m, Throw TypeError)).
Proof.
  destruct (Multimap.get key m) as [|a|name] eqn:E.
  - left. rewrite (put_undefined _ _ _ E).
    apply read_undefined in E as [_ Hi].
    split; [by left|]. split; [done|].
    unfold Multimap.get. simpl. apply read_insert_eq.
  - left. rewrite (put_array _ _ _ _ E).
    pose proof (read_array _ _ _ E) as Ho.
    split; [right; by eexists|]. split; [done|].
    unfold Multimap.get. simpl. apply read_insert_eq.
  - right. pose proof (put_inherited _ v _ _ E) as Hp.
    apply read_inherited in E as (Ho & Hi & _). done.
Qed.

(** X2. Under a key that is not an inherited name, putting the values
    [vs] one after the other leaves the key with its former values
    followed by [vs], in the order they were put. *)
Theorem put_all_in_order (key : string) (vs : list value) (m : Multimap.t) :
  inherited key = false →
  vs ≠ [] →
  Multimap.get key (put_all key vs m)
  = PArray (values (Multimap.get key m) ++ vs).
Proof.
  intros Hi. revert m. induction vs as [|v vs IH]; intros m Hvs; [done|].
  assert ((Multimap.put key v m).2 = Normal) as HN.
  { apply put_returns. intros name Hn.
    apply read_inherited in Hn as (_ & Hn & _). congruence. }
  pose proof (get_put _ _ _ HN) as Hg. simpl.
  destruct vs as [|w vs]; [done|].
  rewrite IH by done. rewrite Hg. simpl. by rewrite <- app_assoc.
Qed.

Lemma put_all_in_order_witness :
  Multimap.get "a"
    (put_all "a" [VNumber 2; VString "x"; VNumber 2]
       (Multimap.put "a" (VNumber 1) Multimap.new).1)
  = PArray [VNumber 1; VNumber 2; VString "x"; VNumber 2].
Proof.
  apply (put_all_in_order "a" [VNumber 2; VString "x"; VNumber 2]
           (Multimap.put "a" (VNumber 1) Multimap.new).1).
  - reflexivity.
  - discriminate.
Defined.



(** X4. [remove] of a value that the key does not hold, which includes
    every value under a key without an array, leaves the multimap exactly
    as it was; it returns unless the key is an inherited name that the map
    does not own, in which case it throws a TypeError. *)
Theorem remove_of_absent_value (key : string) (v : value) (m : Multimap.t) :
  v ∉ values (Multimap.get key m) →
  (Multimap.remove key v m).1 = m ∧
  ((Multimap.remove key v m).2 = Normal ↔
   ∀ name, Multimap.get key m ≠ PInherited name) ∧
  ((Multimap.remove key v m).2 = Normal ∨
   (Multimap.remove key v m).2 = Throw TypeError).
Proof.
  intros Hn. destruct (Multimap.get key m) as [|a|name] eqn:E.
  - rewrite (remove_undefined _ _ _ E). naive_solver.
  - rewrite (remove_absent _ _ _ _ E Hn). naive_solver.
  - rewrite (remove_inherited _ _ _ _ E). naive_solver.
Qed.

Lemma remove_of_absent_value_witness :
  (Multimap.remove "a" (VNumber 7)
     (put_all "a" [VNumber 1; VNumber 2] Multimap.new)).1
  = put_all "a" [VNumber 1; VNumber 2] Multimap.new ∧
  (Multimap.remove "b" (VNumber 1)
     (put_all "a" [VNumber 1; VNumber 2] Multimap.new)).1
  = put_all "a" [VNumber 1; VNumber 2] Multimap.new.
Proof.
  split.
  - apply (remove_of_absent_value "a" (VNumber 7)
             (put_all "a" [VNumber 1; VNumber 2] Multimap.new)).
    vm_compute. intros Hin.
    repeat (apply elem_of_cons in Hin as [Hin|Hin]; [discriminate|]).
    by apply elem_of_nil in Hin.
  - apply (remove_of_absent_value "b" (VNumber 1)
             (put_all "a" [VNumber 1; VNumber 2] Multimap.new)).
    vm_compute. apply not_elem_of_nil.
Defined.



(** ** Further properties of the registry *)

(** X6. [removeShortcutHandler(A, h)] takes away exactly one registration
    of h for A when there is one and none otherwise, and leaves the number
    of registrations of every other handler for A as it was. *)
Theorem removeShortcutHandler_takes_one
    (A : string) (h w : value) (this : KeyBindings.t) :
  registrations A h (KeyBindings.removeShortcutHandler A h this).1
  = Nat.pred (registrations A h this) ∧
  (w ≠ h →
   registrations A w (KeyBindings.removeShortcutHandler A h this).1
   = registrations A w this).
Proof.
  rewrite !registrations_values, removeShortcutHandler_unfold.
  unfold KeyBindings.shortcutHandlers. simpl.
  destruct (Multimap.get A (KeyBindings.eventHandlers this))
    as [|a|name] eqn:E.
  - rewrite (remove_undefined _ _ _ E). simpl. by rewrite E.
  - destruct (get_remove _ h _ _ E) as [_ ->]. simpl. split.
    + destruct (decide (h ∈ a)) as [Hin|Hn].
      * by rewrite <- (occurrences_remove_first h a Hin).
      * rewrite remove_first_absent by done.
        by rewrite occurrences_absent.
    + intros Hw. by apply occurrences_remove_first_other.
  - rewrite (remove_inherited _ _ _ _ E). simpl. by rewrite E.
Qed.


Lemma perform_bindings this r :
  KeyBindings.bindings (perform this r) = KeyBindings.bindings this.
Proof.
  destruct r as [A v|A v|A]; simpl; [| |done].
  - destruct (decide (typeof v = "function"%string)) as [Hf|Hf].
    + by rewrite (addEventHandler_function _ _ _ Hf).
    + by rewrite (addEventHandler_not_function _ _ _ Hf).
  - by rewrite removeShortcutHandler_unfold.
Qed.

(** X8. The bindings given to the constructor are kept as they were
    given: no sequence of [addEventHandler], [removeShortcutHandler] and
    [shortcutHandlers] calls changes them, and no dispatch does, whatever
    the handlers do to the multimap. *)
Theorem bindings_are_kept
    (body : nat → list value → Multimap.t → Multimap.t * completion)
    (bs : list Binding) (rs : list request) (e : Binding) :
  KeyBindings.bindings (perform_all (KeyBindings.constructor bs).1 rs) = bs ∧
  KeyBindings.bindings
    (KeyBindings.callback body e
       (perform_all (KeyBindings.constructor bs).1 rs)).1.1 = bs.
Proof.
  assert (∀ this, KeyBindings.bindings (perform_all this rs)
                  = KeyBindings.bindings this) as Hrs.
  { induction rs as [|r rs IH]; intros this; simpl; [done|].
    by rewrite IH, perform_bindings. }
  split; [by rewrite Hrs|].
  unfold KeyBindings.callback.
  destruct (KeyBindings.handle body (action e) _) as [[m log] c].
  simpl. by rewrite Hrs.
Qed.

Section DispatchOfAnyHandlers.

Variable body : nat → list value → Multimap.t → Multimap.t * completion.




(** The loop through a stretch of handlers that behave: it calls them in
    order and is then where it would be had it started behind them. *)
Lemma forEach_through_quiet action a :
  ∀ pre k togo m log,
    Forall (quiet body action) pre →
    (∀ i v, pre !! i = Some v → a !! (k + i)%nat = Some v) →
    Multimap.get action m = PArray a →
    ∃ m',
      KeyBindings.forEach body (length pre + togo) k action m log
      = KeyBindings.forEach body togo (k + length pre) action m'
          (log ++ calls_of action pre) ∧
      Multimap.get action m' = PArray a.
Proof.
  induction pre as [|v pre IH]; intros k togo m log Hq Hat Hm; simpl.
  { exists m. by rewrite Nat.add_0_r, app_nil_r. }
  apply Forall_cons in Hq as [(f & -> & Hf) Hq].
  rewrite (read_array _ _ _ Hm). simpl.
  pose proof (Hat 0%nat (VFunction f) eq_refl) as H0.
  rewrite Nat.add_0_r in H0. rewrite H0.
  destruct (Hf m) as [Hc Hget]. unfold KeyBindings.invoke.
  destruct (body f [VString action] m) as [m1 c]. simpl in Hc, Hget.
  subst c.
  destruct (IH (S k) togo m1 (log ++ [(VFunction f, [VString action])]))
    as (m' & Hrun & Hm'); [done| |by rewrite Hget|].
  { intros i w Hi. rewrite <- (Hat (S i) w) by done. f_equal. lia. }
  exists m'. split; [|done]. rewrite Hrun.
  replace (k + S (length pre))%nat with (S k + length pre)%nat by lia.
  by rewrite <- app_assoc.
Qed.

(** X11. A dispatch ends at the first handler that throws. When the
    handlers before it behave, they are called in order, then the one
    that throws, and the dispatch throws what that handler threw; the
    handlers after it are not called. *)
Theorem dispatch_stops_at_the_first_throw
    (action : string) (m : Multimap.t) (pre post : list value)
    (f : nat) (e : exn) :
  Multimap.get action m = PArray (pre ++ VFunction f :: post) →
  Forall (quiet body action) pre →
  (∀ m', (body f [VString action] m').2 = Throw e) →
  (KeyBindings.handle body action m).1.2
  = calls_of action (pre ++ [VFunction f]) ∧
  (KeyBindings.handle body action m).2 = Throw e.
Proof.
  intros Hm Hq Hthrow. unfold KeyBindings.handle. rewrite Hm.
  rewrite length_app. simpl.
  destruct (forEach_through_quiet action (pre ++ VFunction f :: post)
              pre 0%nat (S (length post)) m [] Hq) as (m' & Hrun & Hm').
  { intros i v Hi. simpl. by apply lookup_app_l_Some. }
  { done. }
  rewrite Hrun. simpl.
  rewrite (read_array _ _ _ Hm'). simpl.
  rewrite list_lookup_middle by done.
  unfold KeyBindings.invoke. pose proof (Hthrow m') as Ht.
  destruct (body f [VString action] m') as [m1 c]. simpl in Ht. subst c.
  simpl. unfold calls_of. by rewrite fmap_app.
Qed.

End DispatchOfAnyHandlers.


(** Handlers of which the one numbered 2 throws; the others do nothing. *)
Lemma dispatch_stops_at_the_first_throw_witness :
  (KeyBindings.handle
     (λ f args m, if Nat.eqb f 2 then failing f args m else idle f args m)
     "quit"
     {| Multimap.map :=
          {[ "quit"%string := [VFunction 1; VFunction 2; VFunction 3] ]} |}).1.2
  = calls_of "quit" ([VFunction 1] ++ [VFunction 2]) ∧
  (KeyBindings.handle
     (λ f args m, if Nat.eqb f 2 then failing f args m else idle f args m)
     "quit"
     {| Multimap.map :=
          {[ "quit"%string := [VFunction 1; VFunction 2; VFunction 3] ]} |}).2
  = Throw (Thrown (VString "failed")).
Proof.
  apply (dispatch_stops_at_the_first_throw
           (λ f args m, if Nat.eqb f 2 then failing f args m else idle f args m)
           "quit" _ [VFunction 1] [VFunction 3] 2%nat).
  - reflexivity.
  - repeat constructor. exists 1%nat. split; [reflexivity|].
    intros m. split; reflexivity.
  - intros m'. reflexivity.
Defined.

(** X12. As long as no [addEventHandler] call was made for the action of
    a binding, whatever was added for other actions and whatever was
    removed, the binding's callback calls nothing, changes nothing and
    throws a TypeError. *)
Theorem callback_of_an_action_never_added_to
    (body : nat → list value → Multimap.t → Multimap.t * completion)
    (bs : list Binding) (e : Binding) (rs : list request) :
  Forall (adds_nothing_to (action e)) rs →
  KeyBindings.callback body e
    (perform_all (KeyBindings.constructor bs).1 rs)
  = (perform_all (KeyBindings.constructor bs).1 rs, [], Throw TypeError).
Proof.
  intros Hrs.
  assert (∀ a, KeyBindings.shortcutHandlers (action e)
                 (perform_all (KeyBindings.constructor bs).1 rs)
               ≠ PArray a) as Hno.
  { assert (∀ a, KeyBindings.shortcutHandlers (action e)
                   (KeyBindings.constructor bs).1 ≠ PArray a) as H0.
    { intros a. unfold KeyBindings.shortcutHandlers, Multimap.get, read.
      simpl. rewrite lookup_empty. by destruct (inherited (action e)). }
    revert H0. generalize (KeyBindings.constructor bs).1.
    induction Hrs as [|r rs Hr Hrs IH]; intros this Hno; simpl; [done|].
    apply IH. by apply perform_keeps_no_array. }
  unfold KeyBindings.callback. rewrite handle_no_array by exact Hno.
  by destruct (perform_all (KeyBindings.constructor bs).1 rs).
Qed.

Lemma callback_of_an_action_never_added_to_witness :
  KeyBindings.callback idle quit
    (perform_all (KeyBindings.constructor [zoom_in; quit]).1
       [AddEventHandler "zoom-in" (VFunction 1);
        RemoveShortcutHandler "quit" (VFunction 1);
        ShortcutHandlers "quit"])
  = (perform_all (KeyBindings.constructor [zoom_in; quit]).1
       [AddEventHandler "zoom-in" (VFunction 1);
        RemoveShortcutHandler "quit" (VFunction 1);
        ShortcutHandlers "quit"],
     [], Throw TypeError).
Proof.
  apply (callback_of_an_action_never_added_to idle [zoom_in; quit] quit).
  repeat constructor. simpl. discriminate.
Defined.

(** X13. A dispatch to handlers that behave can be repeated: it leaves the
    handlers of the action as they were, so the next dispatch calls the
    same handlers in the same order. *)
Theorem dispatch_can_be_repeated
    (body : nat → list value → Multimap.t → Multimap.t * completion)
    (action : string) (m : Multimap.t) (a : list value) :
  Multimap.get action m = PArray a →
  Forall (quiet body action) a →
  ∃ m1 m2,
    KeyBindings.handle body action m = (m1, calls_of action a, Normal) ∧
    Multimap.get action m1 = PArray a ∧
    KeyBindings.handle body action m1 = (m2, calls_of action a, Normal).
Proof.
  intros Hm Hq.
  destruct (handle_quiet body action m a Hm Hq) as (m1 & Hrun1 & Hm1).
  destruct (handle_quiet body action m1 a Hm1 Hq) as (m2 & Hrun2 & _).
  by exists m1, m2.
Qed.

Lemma dispatch_can_be_repeated_witness :
  ∃ m1 m2,
    KeyBindings.handle idle "quit"
      {| Multimap.map := {[ "quit"%string := [VFunction 1; VFunction 2] ]} |}
    = (m1, calls_of "quit" [VFunction 1; VFunction 2], Normal) ∧
    Multimap.get "quit" m1 = PArray [VFunction 1; VFunction 2] ∧
    KeyBindings.handle idle "quit" m1
    = (m2, calls_of "quit" [VFunction 1; VFunction 2], Normal).
Proof.
  apply (dispatch_can_be_repeated idle "quit"
           {| Multimap.map :=
                {[ "quit"%string := [VFunction 1; VFunction 2] ]} |}
           [VFunction 1; VFunction 2]).
  - reflexivity.
  - apply idle_quiet. repeat constructor.
Defined.

(** X14. Adding any number of functions, one after the other, for an
    action whose name is not inherited registers them after the handlers
    the action had, in the order of the calls; and a dispatch to handlers
    that behave calls all of them once in that order and returns. *)
Theorem handlers_are_called_in_the_order_added
    (body : nat → list value → Multimap.t → Multimap.t * completion)
    (action : string) (hs : list value) (this : KeyBindings.t) :
  inherited action = false →
  Forall (λ v, typeof v = "function"%string) hs →
  hs ≠ [] →
  KeyBindings.shortcutHandlers action
    (perform_all this (AddEventHandler action <$> hs))
  = PArray (values (KeyBindings.shortcutHandlers action this) ++ hs) ∧
  (Forall (quiet body action)
     (values (KeyBindings.shortcutHandlers action this) ++ hs) →
   ∃ handlers',
     KeyBindings.handle body action
       (KeyBindings.eventHandlers
          (perform_all this (AddEventHandler action <$> hs)))
     = (handlers',
        calls_of action
          (values (KeyBindings.shortcutHandlers action this) ++ hs),
        Normal)).
Proof.
  intros Hi Hfs Hne.
  assert (KeyBindings.shortcutHandlers action
            (perform_all this (AddEventHandler action <$> hs))
          = PArray (values (KeyBindings.shortcutHandlers action this) ++ hs))
    as Ha.
  { revert this Hne. induction Hfs as [|h hs Hf Hfs IH]; intros this Hne.
    { done. }
    pose proof (addEventHandler_accepts action h this Hf Hi) as HN.
    pose proof (shortcutHandlers_addEventHandler _ _ _ HN) as Hg.
    rewrite fmap_cons. simpl. destruct hs as [|h' hs]; [done|].
    rewrite IH by done. rewrite Hg. simpl. by rewrite <- app_assoc. }
  split; [done|]. intros Hq.
  destruct (handle_quiet body action _ _ Ha Hq) as (m' & Hrun & _).
  by exists m'.
Qed.

Lemma handlers_are_called_in_the_order_added_witness :
  KeyBindings.shortcutHandlers "quit"
    (perform_all (KeyBindings.constructor [quit]).1
       (AddEventHandler "quit"
          <$> [VFunction 4; VFunction 1; VFunction 3; VFunction 1]))
  = PArray [VFunction 4; VFunction 1; VFunction 3; VFunction 1] ∧
  ∃ handlers',
    KeyBindings.handle idle "quit"
      (KeyBindings.eventHandlers
         (perform_all (KeyBindings.constructor [quit]).1
            (AddEventHandler "quit"
               <$> [VFunction 4; VFunction 1; VFunction 3; VFunction 1])))
    = (handlers',
       calls_of "quit" [VFunction 4; VFunction 1; VFunction 3; VFunction 1],
       Normal).
Proof.
  destruct (handlers_are_called_in_the_order_added idle "quit"
              [VFunction 4; VFunction 1; VFunction 3; VFunction 1]
              (KeyBindings.constructor [quit]).1)
    as [Hregistered Hdispatch].
  - reflexivity.
  - repeat constructor.
  - discriminate.
  - split; [exact Hregistered|].
    apply Hdispatch. apply idle_quiet. repeat constructor.
Defined.

(** X15. After [removeShortcutHandler(A, h)], a dispatch of A to handlers
    that behave calls the handlers that A had, in their order, except for
    the first registration of h: h is called once less than it was
    registered, so not at all if it was registered once, and every other
    handler as often as it is registered. *)
Theorem removed_handler_is_called_once_less
    (body : nat → list value → Multimap.t → Multimap.t * completion)
    (A : string) (h : value) (this : KeyBindings.t) (a : list value) :
  KeyBindings.shortcutHandlers A this = PArray a →
  Forall (quiet body A) a →
  ∃ handlers' log,
    KeyBindings.handle body A
      (KeyBindings.eventHandlers
         (KeyBindings.removeShortcutHandler A h this).1)
    = (handlers', log, Normal) ∧
    log = calls_of A (remove_first h a) ∧
    invocations h log = Nat.pred (occurrences h a) ∧
    (∀ w, w ≠ h → invocations w log = occurrences w a).
Proof.
  intros Ha Hq.
  destruct (shortcutHandlers_removeShortcutHandler _ h _ _ Ha) as [_ Hr].
  destruct (handle_quiet body A _ _ Hr (Forall_remove_first _ h a Hq))
    as (m' & Hrun & _).
  exists m', (calls_of A (remove_first h a)).
  split; [done|]. split; [done|]. rewrite invocations_calls_of. split.
  - destruct (decide (h ∈ a)) as [Hin|Hn].
    + by rewrite <- (occurrences_remove_first h a Hin).
    + rewrite remove_first_absent by done. by rewrite occurrences_absent.
  - intros w Hw. rewrite invocations_calls_of.
    by apply occurrences_remove_first_other.
Qed.

Lemma removed_handler_is_called_once_less_witness :
  ∃ handlers' log,
    KeyBindings.handle idle "quit"
      (KeyBindings.eventHandlers
         (KeyBindings.removeShortcutHandler "quit" (VFunction 1)
            (perform_all (KeyBindings.constructor [quit]).1
               (AddEventHandler "quit"
                  <$> [VFunction 1; VFunction 2]))).1)
    = (handlers', log, Normal) ∧
    log = calls_of "quit" [VFunction 2] ∧
    invocations (VFunction 1) log = 0%nat.
Proof.
  destruct (removed_handler_is_called_once_less idle "quit" (VFunction 1)
              (perform_all (KeyBindings.constructor [quit]).1
                 (AddEventHandler "quit" <$> [VFunction 1; VFunction 2]))
              [VFunction 1; VFunction 2])
    as (handlers' & log & Hrun & Hlog & Hh & _).
  - reflexivity.
  - apply idle_quiet. repeat constructor.
  - exists handlers', log. split; [exact Hrun|]. split; [exact Hlog|].
    exact Hh.
Defined.
